(** * Interaction tracking of the onboarding mini-app (src/unnamed/part_000)

    Shallow embedding of [trackEvent] and of the React hook
    [useInteractionTracking]: the three refs of a component instance, the
    effect that runs on mount and whenever its dependency array
    [[screenName, lineProfile]] changes, the cleanup the effect returns, and
    the [handleScroll] listener it attaches to the viewport element.

    Times are milliseconds ([Date.now()]) as [Z]; the viewport measurements
    and the two divisions of the source are exact rationals ([Q]). *)

From Stdlib Require Import String Ascii List ZArith QArith Bool Lia.
Import ListNotations.
Open Scope nat_scope.
Open Scope string_scope.

(** ** Data model *)

(** A LINE profile.  Each field may be absent ([lineProfile?.field] is then
    [undefined]). *)
Record Profile := mkProfile {
  displayName : option string;
  pictureUrl : option string;
  userId : option string
}.

Definition option_string_eq_dec (x y : option string) : {x = y} + {x <> y}.
Proof. decide equality; apply string_dec. Defined.

Definition profile_eq_dec (x y : Profile) : {x = y} + {x <> y}.
Proof. decide equality; apply option_string_eq_dec. Defined.

Definition oprofile_eq_dec (x y : option Profile) : {x = y} + {x <> y}.
Proof. decide equality; apply profile_eq_dec. Defined.

(** The object built by [trackEvent]. *)
Record EventData := mkEventData {
  eventName : string;
  eventTimestamp : string;
  prop1 : string;
  prop2 : string;
  prop3 : string
}.

(** [lineProfile?.f || fallback]: an absent profile, an absent field and the
    falsy empty string all give the fallback. *)
Definition field_or (f : Profile -> option string) (lineProfile : option Profile)
    (fallback : string) : string :=
  match lineProfile with
  | None => fallback
  | Some pr =>
      match f pr with
      | None => fallback
      | Some s => if String.eqb s "" then fallback else s
      end
  end.

(** ** [trackEvent]

    [new Date().toISOString()] is the formatting function [toISOString]
    applied to the current time; [JSON.stringify] and [fetch] are the
    environment, each of which may throw or reject. *)

(** The JavaScript values a [throw] or a rejected promise carries. *)
Inductive exn :=
| NetworkError (msg : string)
| SerializationError (msg : string).

(** Console output of the page. *)
Inductive ConsoleLine :=
| LogTracking (d : EventData)
| LogFailure (e : exn).

(** Computations of [trackEvent]: they write console lines and end in a value
    or a thrown error (for an [async] function: a rejected promise). *)
Definition Js (A : Type) := list ConsoleLine -> list ConsoleLine * (exn + A).

Definition ret {A} (a : A) : Js A := fun c => (c, inr a).
Definition raise {A} (e : exn) : Js A := fun c => (c, inl e).
Definition bindJ {A B} (m : Js A) (f : A -> Js B) : Js B :=
  fun c => match m c with
           | (c', inl e) => (c', inl e)
           | (c', inr a) => f a c'
           end.
Notation "x <- m ;; k" := (bindJ m (fun x => k))
  (at level 61, m at next level, right associativity).
Notation "m ;; k" := (bindJ m (fun _ => k))
  (at level 61, right associativity).

(** [console.log] / [console.error] *)
Definition log (l : ConsoleLine) : Js unit := fun c => (c ++ [l], inr tt)%list.

(** [try { body } catch (error) { handler(error) }] *)
Definition try_catch {A} (body : Js A) (handler : exn -> Js A) : Js A :=
  fun c => match body c with
           | (c', inl e) => handler e c'
           | (c', inr a) => (c', inr a)
           end.

(** The request [fetch] receives: method, headers and body. *)
Record Request := mkRequest {
  req_method : string;
  req_headers : list (string * string);
  req_body : string
}.

Definition endpoint := "https://icecdp.onrender.com/events".

Section TrackEvent.

(** [new Date().toISOString()] as a function of the current time, and the two
    operations of the environment that may throw or reject: [JSON.stringify]
    and the awaited [fetch]. *)
Variable toISOString : Z -> string.
Variable stringify : EventData -> exn + string.
Variable fetch : string -> Request -> exn + unit.

(** An operation of the environment inside [trackEvent]: its value, or the
    error it throws (or its awaited promise rejects with). *)
Definition lift {A} (r : exn + A) : Js A := fun c => (c, r).

Definition buildEventData (eventName : string) (lineProfile : option Profile)
    (now : Z) : EventData :=
  {| eventName := eventName;
     eventTimestamp := toISOString now;
     prop1 := field_or displayName lineProfile "Unknown";
     prop2 := field_or pictureUrl lineProfile "N/A";
     prop3 := field_or userId lineProfile "Unknown" |}.

Definition trackEvent (eventName : string) (lineProfile : option Profile)
    (now : Z) : Js unit :=
  let eventData := buildEventData eventName lineProfile now in
  log (LogTracking eventData) ;;
  try_catch
    (body <- lift (stringify eventData) ;;
     lift (fetch endpoint {| req_method := "POST";
                       req_headers := [("Content-Type", "application/json")];
                       req_body := body |}))
    (fun error => log (LogFailure error)).

End TrackEvent.

(** ** [useInteractionTracking] *)

Definition Qltb (x y : Q) : bool := negb (Qle_bool y x).

(** A [handleScroll] closure created by one run of the effect: its identity
    (one fresh function per run) and the [screenName] and [lineProfile] it
    captured. *)
Record Handler := mkHandler {
  h_id : nat;
  h_screenName : string;
  h_lineProfile : option Profile
}.

(** One mounted component instance of a screen: the three refs of the hook
    ([viewStartTime], [hasTrackedViewDuration], [hasTrackedScroll]), whether
    [mainRef.current] holds the viewport element, the scroll listeners
    registered on that element, and the effect run currently installed:
    its [handleScroll] (whose captured values are the dependency values of
    that run) and its [currentRef]. [nextId] numbers the closures. *)
Record Inst := mkInst {
  viewStartTime : Z;
  hasTrackedViewDuration : bool;
  hasTrackedScroll : bool;
  mainRef : bool;
  listeners : list Handler;
  installed : Handler;
  currentRef : bool;
  nextId : nat
}.

(** What the hook does to the outside world, in order: calls of [trackEvent]
    (not awaited) and listener (un)registrations on the element. *)
Inductive Act :=
| Track (name : string) (lineProfile : option Profile) (now : Z)
| AddListener (id : nat)
| RemoveListener (id : nat).

(** The element's [scrollTop], [scrollHeight] and [clientHeight] when a scroll
    event is dispatched. *)
Record Measure := mkMeasure {
  scrollTop : Q;
  scrollHeight : Q;
  clientHeight : Q
}.

Definition with_listeners (s : Inst) (ls : list Handler) : Inst :=
  mkInst (viewStartTime s) (hasTrackedViewDuration s) (hasTrackedScroll s)
         (mainRef s) ls (installed s) (currentRef s) (nextId s).

Definition with_scroll (s : Inst) (b : bool) : Inst :=
  mkInst (viewStartTime s) (hasTrackedViewDuration s) b
         (mainRef s) (listeners s) (installed s) (currentRef s) (nextId s).

Definition with_duration (s : Inst) (b : bool) : Inst :=
  mkInst (viewStartTime s) b (hasTrackedScroll s)
         (mainRef s) (listeners s) (installed s) (currentRef s) (nextId s).

(** [addEventListener('scroll', h)]: registering the same function twice
    has no effect. *)
Definition addEventListener (h : Handler) (ls : list Handler) : list Handler :=
  if existsb (fun h' => Nat.eqb (h_id h') (h_id h)) ls then ls else ls ++ [h].

(** [removeEventListener('scroll', h)] *)
Definition removeEventListener (h : Handler) (ls : list Handler) : list Handler :=
  filter (fun h' => negb (Nat.eqb (h_id h') (h_id h))) ls.

(** [handleScroll], the closure [h], on a scroll event of the element. *)
Definition handleScroll (h : Handler) (m : Measure) (now : Z) (s : Inst)
    : Inst * list Act :=
  if mainRef s && negb (hasTrackedScroll s) then
    if Qle_bool (scrollHeight m) (clientHeight m) then (s, [])
    else
      let scrollPercent :=
        (scrollTop m / (scrollHeight m - clientHeight m) * 100)%Q in
      if Qltb 70 scrollPercent then
        (with_scroll s true,
         [Track ("scroll_depth_over_70%_on_" ++ h_screenName h) (h_lineProfile h) now])
      else (s, [])
  else (s, []).

(** A scroll event: the registered listeners run in registration order. *)
Fixpoint runListeners (ls : list Handler) (m : Measure) (now : Z) (s : Inst)
    : Inst * list Act :=
  match ls with
  | [] => (s, [])
  | h :: ls' =>
      let (s1, t1) := handleScroll h m now s in
      let (s2, t2) := runListeners ls' m now s1 in
      (s2, (t1 ++ t2)%list)
  end.

Definition dispatchScroll (m : Measure) (now : Z) (s : Inst) : Inst * list Act :=
  runListeners (listeners s) m now s.

(** The effect body, run after a commit with the dependency values
    [screenName] and [lineProfile]. *)
Definition runEffect (screenName : string) (lineProfile : option Profile)
    (now : Z) (s : Inst) : Inst * list Act :=
  let view :=
    match lineProfile with
    | Some _ => [Track ("view_" ++ screenName) lineProfile now]
    | None => []
    end in
  let handler := mkHandler (nextId s) screenName lineProfile in
  let cur := mainRef s in
  let ls := if cur then addEventListener handler (listeners s) else listeners s in
  let add := if cur then [AddListener (nextId s)] else [] in
  (mkInst (viewStartTime s) (hasTrackedViewDuration s) (hasTrackedScroll s)
          (mainRef s) ls handler cur (S (nextId s)),
   (view ++ add)%list).

(** The cleanup returned by the installed effect run. *)
Definition cleanup (now : Z) (s : Inst) : Inst * list Act :=
  let h := installed s in
  let s1 := if currentRef s
            then with_listeners s (removeEventListener h (listeners s)) else s in
  let rm := if currentRef s then [RemoveListener (h_id h)] else [] in
  if negb (hasTrackedViewDuration s1) then
    let duration := (inject_Z (now - viewStartTime s1) / 1000)%Q in
    let ev := if Qltb 5 duration
              then [Track ("view_duration_over_5s_on_" ++ h_screenName h)
                          (h_lineProfile h) now]
              else [] in
    (with_duration s1 true, (rm ++ ev)%list)
  else (s1, rm).

(** First render and commit of a component instance at time [now]: the refs
    get their initial values ([useRef(Date.now())], [useRef(false)] twice),
    [mainRef.current] is the rendered element when [el] holds, and the effect
    runs.  The [installed] value before the first run is never read: the
    first run overwrites it. *)
Definition mount (screenName : string) (lineProfile : option Profile)
    (el : bool) (now : Z) : Inst * list Act :=
  runEffect screenName lineProfile now
    (mkInst now false false el [] (mkHandler 0 screenName lineProfile) false 0).

(** What can happen to a mounted instance. *)
Inductive Action :=
| Rerender (screenName : string) (lineProfile : option Profile) (now : Z)
| Scroll (m : Measure) (now : Z).

(** A re-render with new props re-runs the effect, after the previous run's
    cleanup, iff one dependency differs from the values of the installed run. *)
Definition depsChanged (screenName : string) (lineProfile : option Profile)
    (s : Inst) : bool :=
  if string_dec screenName (h_screenName (installed s)) then
    if oprofile_eq_dec lineProfile (h_lineProfile (installed s)) then false
    else true
  else true.

Definition step (a : Action) (s : Inst) : Inst * list Act :=
  match a with
  | Rerender screenName lineProfile now =>
      if depsChanged screenName lineProfile s then
        let (s1, t1) := cleanup now s in
        let (s2, t2) := runEffect screenName lineProfile now s1 in
        (s2, (t1 ++ t2)%list)
      else (s, [])
  | Scroll m now => dispatchScroll m now s
  end.

Fixpoint run (acts : list Action) (s : Inst) : Inst * list Act :=
  match acts with
  | [] => (s, [])
  | a :: acts' =>
      let (s1, t1) := step a s in
      let (s2, t2) := run acts' s1 in
      (s2, (t1 ++ t2)%list)
  end.

(** Unmount at time [now]: the installed run's cleanup. *)
Definition unmount (now : Z) (s : Inst) : Inst * list Act := cleanup now s.

(** A whole instance lifetime: mount, the actions, unmount. *)
Definition lifetime (screenName : string) (lineProfile : option Profile)
    (el : bool) (t0 : Z) (acts : list Action) (tend : Z) : list Act :=
  let (s0, t1) := mount screenName lineProfile el t0 in
  let (s1, t2) := run acts s0 in
  let (_, t3) := unmount tend s1 in
  (t1 ++ t2 ++ t3)%list.

(** ** Observations on traces *)

Definition trackedNames (t : list Act) : list string :=
  flat_map (fun a => match a with Track n _ _ => [n] | _ => [] end) t.

Definition isScrollEvent (n : string) : bool :=
  String.prefix "scroll_depth_over_70%_on_" n.

Definition scrollEvents (t : list Act) : nat :=
  length (filter isScrollEvent (trackedNames t)).

(** The profile [mockLiff.getProfile()] resolves to. *)
Definition profileU : Profile :=
  mkProfile (Some "LINE User") (Some "https://placehold.co/100x100/28a745/FFFFFF?text=L")
            (Some "U1234567890abcdef1234567890abcdef").

(** A one-shot flag as a count: 1 once it is set. *)
Definition flag (b : bool) : nat := if b then 1 else 0.

(** The scroll notifications of a screen, as actions. *)
Definition scrolls (ns : list (Measure * Z)) : list Action :=
  map (fun x => Scroll (fst x) (snd x)) ns.

(** The viewport can scroll: [scrollHeight - clientHeight > 0]. *)
Definition scrollable (m : Measure) : Prop :=
  (0 < scrollHeight m - clientHeight m)%Q.

(** The scroll percentage of the claim is over 70. *)
Definition over70 (m : Measure) : Prop :=
  (70 < scrollTop m / (scrollHeight m - clientHeight m) * 100)%Q.

Definition otpViewport (top : Q) : Measure := mkMeasure top 1000 500.

Definition noOverflow (a : Action) : Prop :=
  match a with
  | Scroll m _ => (scrollHeight m <= clientHeight m)%Q
  | Rerender _ _ _ => True
  end.

Definition isTrack (a : Act) : bool :=
  match a with Track _ _ _ => true | _ => false end.

(** The [trackEvent] calls of a trace. *)
Definition tracks (t : list Act) : list Act := filter isTrack t.

Definition scrollOnly (t : list Act) : Prop :=
  Forall (fun n => isScrollEvent n = true) (trackedNames t).

(** The form of the listener registrations of every mounted instance: the
    installed run's [handleScroll] alone when the element was bound, none
    otherwise. *)
Definition listenersWF (s : Inst) : Prop :=
  listeners s = (if currentRef s then [installed s] else []).

Definition durationName (sn : string) : string := "view_duration_over_5s_on_" ++ sn.

(** A re-render that keeps the screen name [sn] and the null profile. *)
Definition nullDeps (sn : string) (a : Action) : Prop :=
  match a with
  | Rerender sn' p' _ => sn' = sn /\ p' = None
  | Scroll _ _ => True
  end.

(** ** The [App] component and its screens *)

(** A policy or a claim of the mock lists: [{ id, name, desc }]. *)
Record Item := mkItem {
  item_id : nat;
  item_name : string;
  item_desc : string
}.

Record Privilege := mkPrivilege {
  pv_name : string;
  pv_desc : string;
  pv_imgSrc : string
}.

(** [policies] of [MyPoliciesScreen]. *)
Definition policies : list Item :=
  [mkItem 1 "Health Insurance" "AIA Health Happy - Policy #74839201";
   mkItem 2 "Life Insurance" "AIA 20 Pay Life (Par) - Policy #58493028";
   mkItem 3 "Tax Saving" "AIA Annuity Fix - Policy #94820134"].

(** [claims] of [MyClaimsScreen]. *)
Definition claims : list Item :=
  [mkItem 1 "OPD Claim" "Submitted: 15/06/2025 - Status: Approved";
   mkItem 2 "Accident Claim" "Submitted: 02/05/2025 - Status: Approved";
   mkItem 3 "Dental Claim" "Submitted: 20/04/2025 - Status: Rejected"].

(** [privileges] of [PrivilegesScreen]. *)
Definition privileges : list Privilege :=
  [mkPrivilege "Free coverage campaign" "Additional COVID-19 coverage until Dec 2025."
               "https://placehold.co/80x80/D31145/FFFFFF?text=Health";
   mkPrivilege "GRAB food voucher" "THB 100 voucher. Valid until 30/09/2025."
               "https://placehold.co/80x80/28a745/FFFFFF?text=Food";
   mkPrivilege "Major Cineplex voucher" "Buy 1 Get 1 Free for any movie."
               "https://placehold.co/80x80/ffc107/000000?text=Movie"].

(** [productCategories] of [NewCustomerForm]. *)
Definition productCategories : list string :=
  ["Health insurance"; "Life insurance"; "Tax saving"].

(** The [userData] object: [isNew] is always set; the other keys are absent
    until a spread adds them. *)
Record UserData := mkUserData {
  isNew : bool;
  firstName : option string;
  lastName : option string;
  phone : option string;
  nid : option string;
  interests : option (list string)
}.

(** [formData] of [NewCustomerForm]. *)
Record FormData := mkFormData {
  fd_firstName : string;
  fd_lastName : string;
  fd_phone : string;
  fd_nid : string
}.

(** The state of [App]: [screen], [userData], [selectedPolicy],
    [selectedClaim]. *)
Record AppState := mkAppState {
  screen : string;
  userData : UserData;
  selectedPolicy : option Item;
  selectedClaim : option Item
}.

Definition set_screen (s : AppState) (sc : string) : AppState :=
  mkAppState sc (userData s) (selectedPolicy s) (selectedClaim s).

Definition set_userData (s : AppState) (u : UserData) : AppState :=
  mkAppState (screen s) u (selectedPolicy s) (selectedClaim s).

(** [prev => ({ ...prev, isNew })] *)
Definition with_isNew (u : UserData) (b : bool) : UserData :=
  mkUserData b (firstName u) (lastName u) (phone u) (nid u) (interests u).

(** [useState('welcome')], [useState({ isNew: true })], [useState(null)] twice. *)
Definition initialApp : AppState :=
  mkAppState "welcome" (mkUserData true None None None None None) None None.

(** The deep-link part of [App]'s mount effect, on [window.location.hash]. *)
Definition appMountHash (hash : string) (s : AppState) : AppState :=
  if String.eqb hash "" then s
  else if String.eqb hash "#policies" then
    set_screen (set_userData s (mkUserData false None None None None None)) "my_policies"
  else if String.eqb hash "#claims" then
    set_screen (set_userData s (mkUserData false None None None None None)) "my_claims"
  else if String.eqb hash "#privileges" then set_screen s "privileges"
  else set_screen s "welcome".

(** The components [renderScreen] chooses from. *)
Inductive Component :=
| WelcomeScreen | ExistingCustomerLogin | NewCustomerForm | OtpScreen
| CompletedScreen | FeaturesMenuScreen | MyPoliciesScreen | PolicyDetailsScreen
| MyClaimsScreen | ClaimDetailsScreen | PrivilegesScreen.

Definition renderScreen (screen : string) : Component :=
  if String.eqb screen "existing_customer_login" then ExistingCustomerLogin
  else if String.eqb screen "new_customer_form" then NewCustomerForm
  else if String.eqb screen "otp" then OtpScreen
  else if String.eqb screen "completed" then CompletedScreen
  else if String.eqb screen "features_menu" then FeaturesMenuScreen
  else if String.eqb screen "my_policies" then MyPoliciesScreen
  else if String.eqb screen "policy_details" then PolicyDetailsScreen
  else if String.eqb screen "my_claims" then MyClaimsScreen
  else if String.eqb screen "claim_details" then ClaimDetailsScreen
  else if String.eqb screen "privileges" then PrivilegesScreen
  else WelcomeScreen.

(** The values of the [props] object [renderScreen] passes to every screen
    (the setters are functions). *)
Inductive PropVal :=
| PFun
| PProfile (p : option Profile)
| PUserData (u : UserData)
| PItem (i : option Item).

Definition props (lineProfile : option Profile) (s : AppState) : list (string * PropVal) :=
  [("setScreen", PFun); ("setUserData", PFun); ("lineProfile", PProfile lineProfile);
   ("userData", PUserData (userData s)); ("setSelectedPolicy", PFun);
   ("selectedPolicy", PItem (selectedPolicy s)); ("setSelectedClaim", PFun);
   ("selectedClaim", PItem (selectedClaim s))].

(** Destructuring an item prop: [undefined] when the key is absent. *)
Fixpoint propItem (key : string) (ps : list (string * PropVal)) : option Item :=
  match ps with
  | [] => None
  | (k, v) :: ps' =>
      if String.eqb k key then match v with PItem i => i | _ => None end
      else propItem key ps'
  end.

(** A number in a template literal. *)
Fixpoint string_of_uint (d : Decimal.uint) : string :=
  match d with
  | Decimal.Nil => ""
  | Decimal.D0 d => String "0"%char (string_of_uint d)
  | Decimal.D1 d => String "1"%char (string_of_uint d)
  | Decimal.D2 d => String "2"%char (string_of_uint d)
  | Decimal.D3 d => String "3"%char (string_of_uint d)
  | Decimal.D4 d => String "4"%char (string_of_uint d)
  | Decimal.D5 d => String "5"%char (string_of_uint d)
  | Decimal.D6 d => String "6"%char (string_of_uint d)
  | Decimal.D7 d => String "7"%char (string_of_uint d)
  | Decimal.D8 d => String "8"%char (string_of_uint d)
  | Decimal.D9 d => String "9"%char (string_of_uint d)
  end.

Definition string_of_nat (n : nat) : string := string_of_uint (Nat.to_uint n).

(** [\s] of a JavaScript regular expression, on the code units 0-255 that an
    [ascii] character stands for: tab, line feed, vertical tab, form feed,
    carriage return, space and no-break space. *)
Definition isWs (c : Ascii.ascii) : bool :=
  let n := Ascii.nat_of_ascii c in
  (Nat.leb 9 n && Nat.leb n 13) || Nat.eqb n 32 || Nat.eqb n 160.

(** [s.replace(/\s+/g, '_')]: every maximal run of whitespace becomes one
    underscore; [inRun] says the previous character was whitespace. *)
Fixpoint replaceWsGo (inRun : bool) (s : string) : string :=
  match s with
  | EmptyString => EmptyString
  | String c s' =>
      if isWs c then
        if inRun then replaceWsGo true s' else String "_"%char (replaceWsGo true s')
      else String c (replaceWsGo false s')
  end.

Definition replaceWs (s : string) : string := replaceWsGo false s.

(** [handleInterestChange] of [NewCustomerForm] on [{ value, checked }]. *)
Definition handleInterestChange (value : string) (checked : bool) (prev : list string)
    : list string :=
  if checked then prev ++ [value]
  else filter (fun i => negb (String.eqb i value)) prev.

(** A click on the controlled checkbox of [value]: the browser reports
    [checked] as the negation of [interests.includes(value)]. *)
Definition clickInterest (value : string) (prev : list string) : list string :=
  handleInterestChange value (negb (existsb (String.eqb value) prev)) prev.

Definition fieldMissing (fd : FormData) : bool :=
  String.eqb (fd_firstName fd) "" || String.eqb (fd_lastName fd) ""
  || String.eqb (fd_phone fd) "" || String.eqb (fd_nid fd) "".

(** [handleSubmit] of [NewCustomerForm]: the value it leaves in [error], the
    new [App] state and the [trackEvent] names. *)
Definition handleSubmitForm (fd : FormData) (ints : list string) (consent : bool)
    (s : AppState) : string * (AppState * list string) :=
  if fieldMissing fd then ("All personal information fields are required.", (s, []))
  else if negb consent then ("You must accept the PDPA consent to proceed.", (s, []))
  else
    ("",
     (set_screen
        (set_userData s (mkUserData true (Some (fd_firstName fd)) (Some (fd_lastName fd))
                                    (Some (fd_phone fd)) (Some (fd_nid fd)) (Some ints)))
        "otp",
      ["click_request_otp"])).

(** [handleSubmit] of [OtpScreen]. *)
Definition handleSubmitOtp (otp : string) (s : AppState) : string * (AppState * list string) :=
  if String.eqb otp "999999" then ("", (set_screen s "completed", ["click_verify_otp"]))
  else ("Invalid OTP. Please try again.", (s, ["click_verify_otp"])).

(** The clicks a rendered screen offers. [SubmitForm] and [SubmitOtp] carry
    the form's local state at the click; list items are clicked by position. *)
Inductive UiEvent :=
| ClickExistingCustomer
| ClickNewCustomer
| ClickOktaLogin
| ClickBack
| SubmitForm (fd : FormData) (ints : list string) (consent : bool)
| SubmitOtp (otp : string)
| ClickAllFeatures
| ClickStartOver
| ClickMenu (target : string)
| ClickPolicy (i : nat)
| ClickClaim (i : nat)
| ClickPrivilege (i : nat).

(** The items [FeaturesMenuScreen] renders: My Policies and My Claims only
    when [userData && !userData.isNew]. *)
Definition menuItems (u : UserData) : list string :=
  (if negb (isNew u) then ["my_policies"; "my_claims"] else []) ++ ["privileges"].

(** One click on the screen [App] renders: [None] when the rendered tree has
    no such element, otherwise the new state and the [trackEvent] names. *)
Definition uiStep (lineProfile : option Profile) (e : UiEvent) (s : AppState)
    : option (AppState * list string) :=
  match renderScreen (screen s), e with
  | WelcomeScreen, ClickExistingCustomer =>
      Some (set_screen (set_userData s (with_isNew (userData s) false)) "existing_customer_login",
            ["click_existing_customer_button"])
  | WelcomeScreen, ClickNewCustomer =>
      Some (set_screen (set_userData s (with_isNew (userData s) true)) "new_customer_form",
            ["click_new_customer_button"])
  | ExistingCustomerLogin, ClickOktaLogin =>
      let u := userData s in
      Some (set_screen (set_userData s (mkUserData false (Some "Valued Customer") (lastName u)
                                                   (phone u) (nid u) (interests u)))
                       "completed",
            ["click_okta_login"])
  | ExistingCustomerLogin, ClickBack => Some (set_screen s "welcome", [])
  | NewCustomerForm, SubmitForm fd ints consent =>
      (* the button is [disabled={!consent}] *)
      if consent then Some (snd (handleSubmitForm fd ints consent s)) else Some (s, [])
  | NewCustomerForm, ClickBack => Some (set_screen s "welcome", [])
  | OtpScreen, SubmitOtp otp => Some (snd (handleSubmitOtp otp s))
  | OtpScreen, ClickBack => Some (set_screen s "new_customer_form", [])
  | CompletedScreen, ClickAllFeatures => Some (set_screen s "features_menu", ["click_all_features"])
  | CompletedScreen, ClickStartOver => Some (set_screen s "welcome", ["click_start_over"])
  | FeaturesMenuScreen, ClickMenu target =>
      if existsb (String.eqb target) (menuItems (userData s))
      then Some (set_screen s target, ["click_menu_" ++ target]) else None
  | FeaturesMenuScreen, ClickBack => Some (set_screen s "welcome", [])
  | MyPoliciesScreen, ClickPolicy i =>
      match nth_error policies i with
      | Some p =>
          Some (set_screen (mkAppState (screen s) (userData s) (Some p) (selectedClaim s))
                           "policy_details",
                ["click_policy_details_" ++ string_of_nat (item_id p)])
      | None => None
      end
  | MyPoliciesScreen, ClickBack => Some (set_screen s "features_menu", [])
  | PolicyDetailsScreen, ClickBack =>
      match propItem "policy" (props lineProfile s) with
      | Some _ => Some (set_screen s "my_policies", [])
      | None => None   (* [if (!policy) return null] *)
      end
  | MyClaimsScreen, ClickClaim i =>
      match nth_error claims i with
      | Some c =>
          Some (set_screen (mkAppState (screen s) (userData s) (selectedPolicy s) (Some c))
                           "claim_details",
                ["click_claim_details_" ++ string_of_nat (item_id c)])
      | None => None
      end
  | MyClaimsScreen, ClickBack => Some (set_screen s "features_menu", [])
  | ClaimDetailsScreen, ClickBack =>
      match propItem "claim" (props lineProfile s) with
      | Some _ => Some (set_screen s "my_claims", [])
      | None => None   (* [if (!claim) return null] *)
      end
  | PrivilegesScreen, ClickPrivilege i =>
      match nth_error privileges i with
      | Some p => Some (s, ["click_privilege_" ++ replaceWs (pv_name p)])
      | None => None
      end
  | PrivilegesScreen, ClickBack => Some (set_screen s "features_menu", [])
  | _, _ => None
  end.

(** The states [App] can be in: after its mount effect on some URL hash, then
    after clicks on what is rendered. *)
Inductive reachable (lineProfile : option Profile) : AppState -> Prop :=
| reach_init (hash : string) : reachable lineProfile (appMountHash hash initialApp)
| reach_step (e : UiEvent) (s s' : AppState) (tr : list string) :
    reachable lineProfile s -> uiStep lineProfile e s = Some (s', tr) ->
    reachable lineProfile s'.

(** Several clicks in a row; [None] as soon as one finds nothing to click. *)
Fixpoint uiRun (lineProfile : option Profile) (es : list UiEvent) (s : AppState)
    : option (AppState * list string) :=
  match es with
  | [] => Some (s, [])
  | e :: es' =>
      match uiStep lineProfile e s with
      | Some (s1, t1) =>
          match uiRun lineProfile es' s1 with
          | Some (s2, t2) => Some (s2, (t1 ++ t2)%list)
          | None => None
          end
      | None => None
      end
  end.

(** The screen names [renderScreen] knows. *)
Definition knownScreens : list string :=
  ["welcome"; "existing_customer_login"; "new_customer_form"; "otp"; "completed";
   "features_menu"; "my_policies"; "policy_details"; "my_claims"; "claim_details";
   "privileges"].

(** The invariant of the reachable [App] states: a screen [renderScreen]
    knows; the policy and claim screens only for an existing customer; on
    the OTP and completion screens a non-empty first name. *)
Definition appInv (s : AppState) : Prop :=
  In (screen s) knownScreens /\
  (In (screen s) ["my_policies"; "policy_details"; "my_claims"; "claim_details"] ->
   isNew (userData s) = false) /\
  (In (screen s) ["otp"; "completed"] ->
   exists n, firstName (userData s) = Some n /\ n <> "").

(** No character of the string is [\s]. *)
Fixpoint noWs (s : string) : bool :=
  match s with
  | EmptyString => true
  | String c s' => negb (isWs c) && noWs s'
  end.

(** The interests after a sequence of checkbox clicks, from [useState([])]. *)
Definition interestsAfter (clicks : list string) : list string :=
  fold_left (fun l v => clickInterest v l) clicks [].

Example lifetime_spec_scenario :
  trackedNames
    (lifetime "otp_screen" (Some profileU) true 0
       [Scroll (mkMeasure 400 1000 500) 1000] 6000)
  = ["view_otp_screen"; "scroll_depth_over_70%_on_otp_screen";
     "view_duration_over_5s_on_otp_screen"].
Proof. reflexivity. Qed.

Example lifetime_profile_late :
  lifetime "welcome" None true 0 [Rerender "welcome" (Some profileU) 1000] 10000
  = [AddListener 0; RemoveListener 0; Track "view_welcome" (Some profileU) 1000;
     AddListener 1; RemoveListener 1].
Proof. reflexivity. Qed.

(** ** Lemmas *)

Section ScrollLemmas.

Lemma trackedNames_app (t1 t2 : list Act) :
  trackedNames (t1 ++ t2) = (trackedNames t1 ++ trackedNames t2)%list.
Proof. unfold trackedNames. apply flat_map_app. Qed.

Lemma scrollEvents_app (t1 t2 : list Act) :
  scrollEvents (t1 ++ t2) = scrollEvents t1 + scrollEvents t2.
Proof.
  unfold scrollEvents. rewrite trackedNames_app, filter_app, length_app. reflexivity.
Qed.

Lemma isScrollEvent_view (x : string) : isScrollEvent ("view_" ++ x) = false.
Proof. reflexivity. Qed.

Lemma isScrollEvent_duration (x : string) :
  isScrollEvent ("view_duration_over_5s_on_" ++ x) = false.
Proof. reflexivity. Qed.

Lemma isScrollEvent_scroll (x : string) :
  isScrollEvent ("scroll_depth_over_70%_on_" ++ x) = true.
Proof. unfold isScrollEvent. simpl. destruct x; reflexivity. Qed.

Lemma scrollEvents_scroll_track (x : string) (p : option Profile) (t : Z) :
  scrollEvents [Track ("scroll_depth_over_70%_on_" ++ x) p t] = 1.
Proof.
  unfold scrollEvents, trackedNames. cbn [flat_map app filter].
  rewrite isScrollEvent_scroll. reflexivity.
Qed.

Lemma scrollEvents_cleanup (t : Z) (s : Inst) : scrollEvents (snd (cleanup t s)) = 0.
Proof.
  unfold cleanup.
  destruct (currentRef s); simpl;
    destruct (hasTrackedViewDuration s); simpl; try reflexivity;
    destruct (Qltb _ _); reflexivity.
Qed.

Lemma scrollEvents_runEffect (sn : string) (p : option Profile) (t : Z) (s : Inst) :
  scrollEvents (snd (runEffect sn p t s)) = 0.
Proof.
  unfold runEffect. destruct p, (mainRef s); reflexivity.
Qed.

Lemma cleanup_scroll (t : Z) (s : Inst) :
  hasTrackedScroll (fst (cleanup t s)) = hasTrackedScroll s.
Proof.
  unfold cleanup. destruct (currentRef s); simpl;
    destruct (hasTrackedViewDuration s); reflexivity.
Qed.

Lemma runEffect_scroll (sn : string) (p : option Profile) (t : Z) (s : Inst) :
  hasTrackedScroll (fst (runEffect sn p t s)) = hasTrackedScroll s.
Proof. reflexivity. Qed.

Lemma runListeners_scroll_budget (ls : list Handler) (m : Measure) (t : Z) (s : Inst) :
  scrollEvents (snd (runListeners ls m t s)) + flag (hasTrackedScroll s)
  <= flag (hasTrackedScroll (fst (runListeners ls m t s))).
Proof.
  revert s. induction ls as [|h ls IH]; intros s; simpl.
  - lia.
  - destruct (handleScroll h m t s) as [s1 t1] eqn:E.
    destruct (runListeners ls m t s1) as [s2 t2] eqn:E2. simpl.
    rewrite scrollEvents_app.
    specialize (IH s1). rewrite E2 in IH. simpl in IH.
    assert (scrollEvents t1 + flag (hasTrackedScroll s) <= flag (hasTrackedScroll s1)).
    { unfold handleScroll in E.
      destruct (mainRef s && negb (hasTrackedScroll s)) eqn:G.
      - apply andb_true_iff in G as [_ G]. apply negb_true_iff in G.
        destruct (Qle_bool _ _).
        + injection E as <- <-. simpl. lia.
        + destruct (Qltb _ _); injection E as <- <-.
          * rewrite G. unfold scrollEvents, trackedNames, isScrollEvent. simpl.
            destruct (h_screenName h); simpl; lia.
          * simpl. lia.
      - injection E as <- <-. simpl. lia. }
    lia.
Qed.

Lemma step_scroll_budget (a : Action) (s : Inst) :
  scrollEvents (snd (step a s)) + flag (hasTrackedScroll s)
  <= flag (hasTrackedScroll (fst (step a s))).
Proof.
  destruct a as [sn p t | m t]; unfold step.
  - destruct (depsChanged sn p s).
    + destruct (cleanup t s) as [s1 t1] eqn:E1.
      destruct (runEffect sn p t s1) as [s2 t2] eqn:E2. cbn [fst snd].
      rewrite scrollEvents_app.
      pose proof (scrollEvents_cleanup t s) as H1. rewrite E1 in H1. simpl in H1.
      pose proof (scrollEvents_runEffect sn p t s1) as H2. rewrite E2 in H2. simpl in H2.
      pose proof (cleanup_scroll t s) as H3. rewrite E1 in H3. simpl in H3.
      pose proof (runEffect_scroll sn p t s1) as H4. rewrite E2 in H4. simpl in H4.
      rewrite H1, H2, H4, H3. lia.
    + simpl. lia.
  - apply runListeners_scroll_budget.
Qed.

Lemma run_scroll_budget (acts : list Action) (s : Inst) :
  scrollEvents (snd (run acts s)) + flag (hasTrackedScroll s)
  <= flag (hasTrackedScroll (fst (run acts s))).
Proof.
  revert s. induction acts as [|a acts IH]; intros s; simpl.
  - lia.
  - pose proof (step_scroll_budget a s) as Ha.
    destruct (step a s) as [s1 t1].
    specialize (IH s1).
    destruct (run acts s1) as [s2 t2]. cbn [fst snd] in *.
    rewrite scrollEvents_app. lia.
Qed.

Lemma flag_le_1 (b : bool) : flag b <= 1.
Proof. destruct b; simpl; lia. Qed.

End ScrollLemmas.

Section ScrollRuns.

Lemma Qltb_spec (x y : Q) : Qltb x y = true <-> (x < y)%Q.
Proof.
  unfold Qltb. destruct (Qle_bool y x) eqn:E; simpl.
  - apply Qle_bool_iff in E. split; [discriminate | intro H].
    exfalso. exact (Qlt_not_le _ _ H E).
  - split; [intros _ | reflexivity].
    apply Qnot_le_lt. intro H. apply Qle_bool_iff in H. congruence.
Qed.

Lemma scrollable_not_le (m : Measure) :
  scrollable m -> Qle_bool (scrollHeight m) (clientHeight m) = false.
Proof.
  unfold scrollable. intro H. apply Qlt_minus_iff in H.
  destruct (Qle_bool _ _) eqn:E; [|reflexivity].
  apply Qle_bool_iff in E. exfalso. exact (Qlt_not_le _ _ H E).
Qed.

Lemma mount_state (sn : string) (p : option Profile) (t0 : Z) :
  mount sn p true t0 =
  (mkInst t0 false false true [mkHandler 0 sn p] (mkHandler 0 sn p) true 1,
   ((match p with Some _ => [Track ("view_" ++ sn) p t0] | None => [] end)
      ++ [AddListener 0])%list).
Proof. reflexivity. Qed.

Lemma runListeners_reported (ls : list Handler) (m : Measure) (t : Z) (s : Inst) :
  hasTrackedScroll s = true -> runListeners ls m t s = (s, []).
Proof.
  intro H. induction ls as [|h ls IH]; simpl; [reflexivity|].
  unfold handleScroll. rewrite H, andb_false_r. rewrite IH. reflexivity.
Qed.

Lemma run_scrolls_reported (ns : list (Measure * Z)) (s : Inst) :
  hasTrackedScroll s = true -> run (scrolls ns) s = (s, []).
Proof.
  intro H. induction ns as [|[m t] ns IH]; simpl; [reflexivity|].
  unfold dispatchScroll. rewrite runListeners_reported by exact H.
  rewrite IH. reflexivity.
Qed.

Lemma scroll_quiet (m : Measure) (t : Z) (s : Inst) (h : Handler) :
  listeners s = [h] -> scrollable m -> ~ over70 m ->
  step (Scroll m t) s = (s, []).
Proof.
  intros Hl Hs Ho. simpl. unfold dispatchScroll. rewrite Hl. simpl.
  unfold handleScroll. rewrite (scrollable_not_le m Hs).
  destruct (Qltb 70 _) eqn:E.
  - apply Qltb_spec in E. contradiction.
  - destruct (mainRef s && negb (hasTrackedScroll s)); reflexivity.
Qed.

Lemma run_scrolls_quiet (ns : list (Measure * Z)) (s : Inst) (h : Handler) :
  listeners s = [h] ->
  Forall (fun x => scrollable (fst x) /\ ~ over70 (fst x)) ns ->
  run (scrolls ns) s = (s, []).
Proof.
  intros Hl HF. induction HF as [|[m t] ns [Hs Ho] _ IH];
    cbn [scrolls map run fst snd]; [reflexivity|].
  rewrite (scroll_quiet m t s h Hl Hs Ho). unfold scrolls in IH. rewrite IH.
  reflexivity.
Qed.

Lemma scroll_fires (m : Measure) (t : Z) (s : Inst) (h : Handler) :
  listeners s = [h] -> mainRef s = true -> hasTrackedScroll s = false ->
  scrollable m -> over70 m ->
  step (Scroll m t) s =
  (with_scroll s true,
   [Track ("scroll_depth_over_70%_on_" ++ h_screenName h) (h_lineProfile h) t]).
Proof.
  intros Hl Hm Hf Hs Ho. simpl. unfold dispatchScroll. rewrite Hl. simpl.
  unfold handleScroll. rewrite Hm, Hf, (scrollable_not_le m Hs). simpl.
  apply Qltb_spec in Ho. unfold over70 in Ho. rewrite Ho.
  reflexivity.
Qed.

End ScrollRuns.

Lemma lifetime_scroll_budget (sn : string) (p : option Profile) (el : bool)
    (t0 : Z) (acts : list Action) (tend : Z) :
  scrollEvents (lifetime sn p el t0 acts tend) <= 1.
Proof.
  unfold lifetime.
  destruct (mount sn p el t0) as [s0 t1] eqn:E0.
  pose proof (run_scroll_budget acts s0) as HB.
  destruct (run acts s0) as [s1 t2]. cbn [fst snd] in HB.
  pose proof (scrollEvents_cleanup tend s1) as H3. unfold unmount.
  destruct (cleanup tend s1) as [s2 t3]. cbn [snd] in H3.
  rewrite !scrollEvents_app, H3.
  unfold mount in E0.
  pose proof (scrollEvents_runEffect sn p t0
                (mkInst t0 false false el [] (mkHandler 0 sn p) false 0)) as H1.
  pose proof (runEffect_scroll sn p t0
                (mkInst t0 false false el [] (mkHandler 0 sn p) false 0)) as H2.
  rewrite E0 in H1, H2. cbn [fst snd hasTrackedScroll] in H1, H2.
  rewrite H2 in HB. pose proof (flag_le_1 (hasTrackedScroll s1)).
  simpl in HB. lia.
Qed.

(** * Claims *)

(** C1. Over any lifetime of a screen instance, whatever scrolls, re-renders
    and unmount it sees, at most one [scroll_depth_over_70%_on_*] event is
    emitted.  On an instance whose viewport is bound and scrollable, a
    sequence of scroll notifications emits nothing before the first one whose
    percentage [scrollTop/(scrollHeight-clientHeight)*100] is over 70, exactly
    [scroll_depth_over_70%_on_<screenName>] at that one, after which
    [hasTrackedScroll] is true, and nothing at any later notification. *)
Theorem scroll_event_once_at_first_crossing :
  (forall sn p el t0 acts tend, scrollEvents (lifetime sn p el t0 acts tend) <= 1) /\
  (forall (sn : string) (p : option Profile) (t0 : Z)
          (pre : list (Measure * Z)) (m : Measure) (t : Z) (post : list (Measure * Z)),
     Forall (fun x => scrollable (fst x) /\ ~ over70 (fst x)) pre ->
     scrollable m -> over70 m ->
     let s0 := fst (mount sn p true t0) in
     let (s1, tr1) := run (scrolls pre) s0 in
     let (s2, tr2) := step (Scroll m t) s1 in
     let (s3, tr3) := run (scrolls post) s2 in
     tr1 = [] /\
     tr2 = [Track ("scroll_depth_over_70%_on_" ++ sn) p t] /\
     hasTrackedScroll s2 = true /\
     tr3 = []).
Proof.
  split.
  - apply lifetime_scroll_budget.
  - intros sn p t0 pre m t post Hpre Hs Ho s0. subst s0.
    rewrite mount_state. cbn [fst].
    rewrite (run_scrolls_quiet pre _ (mkHandler 0 sn p)); [|reflexivity|exact Hpre].
    rewrite (scroll_fires m t _ (mkHandler 0 sn p)); try reflexivity; try assumption.
    rewrite run_scrolls_reported by reflexivity.
    repeat split.
Qed.

Lemma scroll_event_once_at_first_crossing_witness :
  Forall (fun x => scrollable (fst x) /\ ~ over70 (fst x))
         [(otpViewport 100, 500%Z); (otpViewport 350, 800%Z)] /\
  scrollable (otpViewport 400) /\ over70 (otpViewport 400) /\
  (let s0 := fst (mount "otp_screen" (Some profileU) true 0) in
   let (s1, tr1) := run (scrolls [(otpViewport 100, 500%Z); (otpViewport 350, 800%Z)]) s0 in
   let (s2, tr2) := step (Scroll (otpViewport 400) 1000) s1 in
   let (s3, tr3) := run (scrolls [(otpViewport 500, 1500%Z)]) s2 in
   tr1 = [] /\
   tr2 = [Track ("scroll_depth_over_70%_on_" ++ "otp_screen") (Some profileU) 1000] /\
   hasTrackedScroll s2 = true /\
   tr3 = []).
Proof.
  assert (Hpre : Forall (fun x => scrollable (fst x) /\ ~ over70 (fst x))
         [(otpViewport 100, 500%Z); (otpViewport 350, 800%Z)]).
  { repeat constructor; unfold scrollable, over70, Qlt, Qle; simpl; lia. }
  assert (Hs : scrollable (otpViewport 400)).
  { unfold scrollable, Qlt; simpl; lia. }
  assert (Ho : over70 (otpViewport 400)).
  { unfold over70, Qlt; simpl; lia. }
  split; [exact Hpre|]. split; [exact Hs|]. split; [exact Ho|].
  exact (proj2 scroll_event_once_at_first_crossing "otp_screen" (Some profileU) 0%Z
           _ (otpViewport 400) 1000%Z [(otpViewport 500, 1500%Z)] Hpre Hs Ho).
Defined.

Section Frames.

Lemma runListeners_no_overflow (ls : list Handler) (m : Measure) (t : Z) (s : Inst) :
  (scrollHeight m <= clientHeight m)%Q -> runListeners ls m t s = (s, []).
Proof.
  intro H. apply Qle_bool_iff in H.
  induction ls as [|h ls IH]; simpl; [reflexivity|].
  unfold handleScroll. rewrite H.
  destruct (mainRef s && negb (hasTrackedScroll s)); rewrite IH; reflexivity.
Qed.

Lemma run_no_overflow (acts : list Action) (s : Inst) :
  Forall noOverflow acts -> scrollEvents (snd (run acts s)) = 0.
Proof.
  intro HF. revert s. induction HF as [|a acts Ha _ IH]; intros s; [reflexivity|].
  cbn [run].
  assert (H1 : scrollEvents (snd (step a s)) = 0).
  { destruct a as [sn p t | m t]; unfold step.
    - destruct (depsChanged sn p s); [|reflexivity].
      pose proof (scrollEvents_cleanup t s) as E1.
      destruct (cleanup t s) as [s1 t1].
      pose proof (scrollEvents_runEffect sn p t s1) as E2.
      destruct (runEffect sn p t s1) as [s2 t2]. cbn [snd] in *.
      rewrite scrollEvents_app, E1, E2. reflexivity.
    - unfold dispatchScroll. rewrite runListeners_no_overflow by exact Ha.
      reflexivity. }
  destruct (step a s) as [s1 t1]. specialize (IH s1).
  destruct (run acts s1) as [s2 t2]. cbn [snd] in *.
  rewrite scrollEvents_app, H1, IH. reflexivity.
Qed.

Lemma with_scroll_eta (s : Inst) : with_scroll s (hasTrackedScroll s) = s.
Proof. destruct s; reflexivity. Qed.

Lemma runListeners_frame (ls : list Handler) (m : Measure) (t : Z) (s : Inst) :
  let s' := fst (runListeners ls m t s) in
  s' = with_scroll s (hasTrackedScroll s') /\
  Bool.le (hasTrackedScroll s) (hasTrackedScroll s').
Proof.
  revert s. induction ls as [|h ls IH]; intros s; cbn [runListeners].
  - simpl. rewrite with_scroll_eta. split; [reflexivity|destruct (hasTrackedScroll s); reflexivity].
  - assert (Hh : fst (handleScroll h m t s) = with_scroll s (hasTrackedScroll (fst (handleScroll h m t s))) /\
                 Bool.le (hasTrackedScroll s) (hasTrackedScroll (fst (handleScroll h m t s)))).
    { unfold handleScroll.
      destruct (mainRef s && negb (hasTrackedScroll s));
        [destruct (Qle_bool _ _); [|destruct (Qltb _ _)]|]; cbn [fst];
        rewrite ?with_scroll_eta; split; try reflexivity;
        destruct (hasTrackedScroll s); reflexivity. }
    destruct (handleScroll h m t s) as [s1 t1]. cbn [fst] in Hh.
    specialize (IH s1).
    destruct (runListeners ls m t s1) as [s2 t2]. cbn [fst] in *.
    destruct Hh as [Hs1 Hl1], IH as [Hs2 Hl2].
    split.
    + rewrite Hs2, Hs1. reflexivity.
    + destruct (hasTrackedScroll s), (hasTrackedScroll s1), (hasTrackedScroll s2);
        simpl in *; congruence.
Qed.

Lemma cleanup_frame (t : Z) (s : Inst) :
  let s' := fst (cleanup t s) in
  s' = with_duration (with_listeners s (listeners s')) true.
Proof.
  unfold cleanup. destruct (currentRef s); cbn [with_listeners hasTrackedViewDuration];
    destruct (hasTrackedViewDuration s) eqn:E; cbn;
    try reflexivity; destruct s; simpl in *; subst; reflexivity.
Qed.

Lemma runEffect_frame (sn : string) (p : option Profile) (t : Z) (s : Inst) :
  let s' := fst (runEffect sn p t s) in
  viewStartTime s' = viewStartTime s /\
  hasTrackedViewDuration s' = hasTrackedViewDuration s /\
  hasTrackedScroll s' = hasTrackedScroll s.
Proof. repeat split. Qed.

Lemma bool_le_trans (a b c : bool) : Bool.le a b -> Bool.le b c -> Bool.le a c.
Proof. destruct a, b, c; simpl; congruence. Qed.

Lemma bool_le_refl (a : bool) : Bool.le a a.
Proof. destruct a; reflexivity. Qed.

Lemma step_frame (a : Action) (s : Inst) :
  let s' := fst (step a s) in
  viewStartTime s' = viewStartTime s /\
  Bool.le (hasTrackedViewDuration s) (hasTrackedViewDuration s') /\
  Bool.le (hasTrackedScroll s) (hasTrackedScroll s').
Proof.
  destruct a as [sn p t | m t]; unfold step.
  - destruct (depsChanged sn p s); [|cbn [fst]; auto using bool_le_refl].
    pose proof (cleanup_frame t s) as E1.
    destruct (cleanup t s) as [s1 t1]. cbn [fst] in E1.
    pose proof (runEffect_frame sn p t s1) as E2.
    destruct (runEffect sn p t s1) as [s2 t2]. cbn [fst] in *.
    destruct E2 as (V & D & S). rewrite V, D, S, E1. cbn.
    split; [reflexivity|]. split; [destruct (hasTrackedViewDuration s); reflexivity|].
    apply bool_le_refl.
  - unfold dispatchScroll.
    destruct (runListeners_frame (listeners s) m t s) as [E L].
    rewrite E. cbn. split; [reflexivity|]. split; [apply bool_le_refl|].
    rewrite E in L. exact L.
Qed.

Lemma run_frame (acts : list Action) (s : Inst) :
  let s' := fst (run acts s) in
  viewStartTime s' = viewStartTime s /\
  Bool.le (hasTrackedViewDuration s) (hasTrackedViewDuration s') /\
  Bool.le (hasTrackedScroll s) (hasTrackedScroll s').
Proof.
  revert s. induction acts as [|a acts IH]; intros s; cbn [run].
  - cbn. auto using bool_le_refl.
  - pose proof (step_frame a s) as (V1 & D1 & S1).
    destruct (step a s) as [s1 t1]. cbn [fst] in *.
    destruct (IH s1) as (V2 & D2 & S2).
    destruct (run acts s1) as [s2 t2]. cbn [fst] in *.
    split; [congruence|]. split; eauto using bool_le_trans.
Qed.

End Frames.

(** C4. On an instance whose viewport never overflows
    ([scrollHeight <= clientHeight] at every scroll notification), no
    scroll-depth event is emitted over its whole lifetime, whatever the
    number of notifications, their [scrollTop] values and the re-renders. *)
Theorem no_scroll_event_without_overflow (sn : string) (p : option Profile)
    (el : bool) (t0 : Z) (acts : list Action) (tend : Z) :
  Forall noOverflow acts ->
  scrollEvents (lifetime sn p el t0 acts tend) = 0.
Proof.
  intro HF. unfold lifetime.
  pose proof (scrollEvents_runEffect sn p t0
                (mkInst t0 false false el [] (mkHandler 0 sn p) false 0)) as H1.
  unfold mount. destruct (runEffect _ _ _ _) as [s0 t1]. cbn [snd] in H1.
  pose proof (run_no_overflow acts s0 HF) as H2.
  destruct (run acts s0) as [s1 t2]. cbn [snd] in H2.
  pose proof (scrollEvents_cleanup tend s1) as H3. unfold unmount.
  destruct (cleanup tend s1) as [s2 t3]. cbn [snd] in H3.
  rewrite !scrollEvents_app, H1, H2, H3. reflexivity.
Qed.

Lemma no_scroll_event_without_overflow_witness :
  Forall noOverflow [Scroll (mkMeasure 0 500 500) 100; Scroll (mkMeasure 300 400 500) 200;
                     Rerender "welcome" (Some profileU) 300] /\
  scrollEvents (lifetime "welcome" None true 0
                  [Scroll (mkMeasure 0 500 500) 100; Scroll (mkMeasure 300 400 500) 200;
                   Rerender "welcome" (Some profileU) 300] 9000) = 0.
Proof.
  assert (HF : Forall noOverflow
                 [Scroll (mkMeasure 0 500 500) 100; Scroll (mkMeasure 300 400 500) 200;
                  Rerender "welcome" (Some profileU) 300]).
  { repeat (apply Forall_cons; [cbn; unfold Qle; simpl; try lia; exact I|]).
    apply Forall_nil. }
  split; [exact HF|].
  exact (no_scroll_event_without_overflow "welcome" None true 0%Z _ 9000%Z HF).
Defined.

(** C8. The refs of an instance: [viewStartTime] is the mount time and no
    later operation changes it; a scroll notification changes nothing of the
    instance but [hasTrackedScroll]; a cleanup (teardown evaluation) changes
    [hasTrackedViewDuration], which it leaves true, and the listener
    registrations, nothing else; both flags start false and, over any
    sequence of operations, once true stay true. *)
Theorem tracker_state_frame :
  (forall sn p el t0,
     let s := fst (mount sn p el t0) in
     viewStartTime s = t0 /\ hasTrackedViewDuration s = false /\
     hasTrackedScroll s = false) /\
  (forall m t s,
     let s' := fst (step (Scroll m t) s) in
     s' = with_scroll s (hasTrackedScroll s') /\
     Bool.le (hasTrackedScroll s) (hasTrackedScroll s')) /\
  (forall t s,
     let s' := fst (cleanup t s) in
     s' = with_duration (with_listeners s (listeners s')) true) /\
  (forall acts s,
     let s' := fst (run acts s) in
     viewStartTime s' = viewStartTime s /\
     Bool.le (hasTrackedViewDuration s) (hasTrackedViewDuration s') /\
     Bool.le (hasTrackedScroll s) (hasTrackedScroll s')).
Proof.
  split; [intros; repeat split|].
  split; [intros m t s; apply runListeners_frame|].
  split; [intros t s; apply cleanup_frame|].
  intros acts s; apply run_frame.
Qed.

(** C5. Whatever [JSON.stringify] and [fetch] do (succeed, throw or reject),
    the promise of [trackEvent] settles to a value, never to an error: a
    failure is caught and only logged with [console.error], after the
    [console.log] of the event. *)
Theorem trackEvent_never_propagates :
  forall (toISOString : Z -> string) (stringify : EventData -> exn + string)
         (fetch : string -> Request -> exn + unit)
         (name : string) (p : option Profile) (now : Z) (console : list ConsoleLine),
    let d := buildEventData toISOString name p now in
    exists rest,
      trackEvent toISOString stringify fetch name p now console
      = ((console ++ [LogTracking d] ++ rest)%list, inr tt) /\
      (rest = [] \/ exists e, rest = [LogFailure e]).
Proof.
  intros toISOString stringify fetch name p now console d.
  unfold trackEvent, bindJ, try_catch, log, lift. fold d.
  destruct (stringify d) as [e|body].
  - exists [LogFailure e]. rewrite app_assoc. split; [reflexivity|]. right; eauto.
  - match goal with |- context [fetch endpoint ?r] => destruct (fetch endpoint r) as [e|[]] end.
    + exists [LogFailure e]. rewrite app_assoc. split; [reflexivity|]. right; eauto.
    + exists []. rewrite app_nil_r. split; [reflexivity|]. left; reflexivity.
Qed.

(** C6. The record built by [trackEvent] carries the event name verbatim and
    [toISOString] of the current time; with a null profile its three profile
    fields are ["Unknown"], ["N/A"], ["Unknown"]; with a profile each field
    falls back to the same literal when the profile lacks it, and is the
    profile's value when that value is a non-empty string (the empty string,
    falsy for [||], also falls back).  Building it is a total function. *)
Theorem buildEventData_fields :
  (forall toISOString name p now,
     let d := buildEventData toISOString name p now in
     eventName d = name /\ eventTimestamp d = toISOString now) /\
  (forall toISOString name now,
     let d := buildEventData toISOString name None now in
     prop1 d = "Unknown" /\ prop2 d = "N/A" /\ prop3 d = "Unknown") /\
  (forall toISOString name now dn pu ui,
     prop1 (buildEventData toISOString name (Some (mkProfile None pu ui)) now) = "Unknown" /\
     prop2 (buildEventData toISOString name (Some (mkProfile dn None ui)) now) = "N/A" /\
     prop3 (buildEventData toISOString name (Some (mkProfile dn pu None)) now) = "Unknown") /\
  (forall toISOString name now pu ui a s,
     prop1 (buildEventData toISOString name
              (Some (mkProfile (Some (String a s)) pu ui)) now) = String a s) /\
  (forall toISOString name now dn ui a s,
     prop2 (buildEventData toISOString name
              (Some (mkProfile dn (Some (String a s)) ui)) now) = String a s) /\
  (forall toISOString name now dn pu a s,
     prop3 (buildEventData toISOString name
              (Some (mkProfile dn pu (Some (String a s)))) now) = String a s) /\
  (forall toISOString name now pu ui,
     prop1 (buildEventData toISOString name (Some (mkProfile (Some "") pu ui)) now)
     = "Unknown").
Proof.
  repeat split.
Qed.

Section Lifecycle.

Lemma scrollOnly_app (t1 t2 : list Act) :
  scrollOnly t1 -> scrollOnly t2 -> scrollOnly (t1 ++ t2).
Proof.
  unfold scrollOnly. rewrite trackedNames_app. intros H1 H2.
  apply Forall_app. split; assumption.
Qed.

Lemma runListeners_scrollOnly (ls : list Handler) (m : Measure) (t : Z) (s : Inst) :
  scrollOnly (snd (runListeners ls m t s)).
Proof.
  revert s. induction ls as [|h ls IH]; intros s; cbn [runListeners].
  - constructor.
  - assert (H1 : scrollOnly (snd (handleScroll h m t s))).
    { unfold handleScroll.
      destruct (mainRef s && negb (hasTrackedScroll s));
        [destruct (Qle_bool _ _); [|destruct (Qltb _ _)]|]; cbn [snd];
        try constructor.
      - apply isScrollEvent_scroll.
      - constructor. }
    destruct (handleScroll h m t s) as [s1 t1].
    specialize (IH s1). destruct (runListeners ls m t s1) as [s2 t2].
    cbn [snd] in *. apply scrollOnly_app; assumption.
Qed.

Lemma run_scrolls_frame (ns : list (Measure * Z)) (s : Inst) :
  let s' := fst (run (scrolls ns) s) in
  s' = with_scroll s (hasTrackedScroll s') /\ scrollOnly (snd (run (scrolls ns) s)).
Proof.
  revert s. induction ns as [|[m t] ns IH]; intros s;
    cbn [scrolls map run fst snd].
  - cbn. rewrite with_scroll_eta. split; [reflexivity|constructor].
  - unfold step, dispatchScroll.
    destruct (runListeners_frame (listeners s) m t s) as [E _].
    pose proof (runListeners_scrollOnly (listeners s) m t s) as O1.
    destruct (runListeners (listeners s) m t s) as [s1 t1]. cbn [fst snd] in *.
    specialize (IH s1). unfold scrolls in IH.
    destruct (run (map (fun x => Scroll (fst x) (snd x)) ns) s1) as [s2 t2].
    cbn [fst snd] in *. destruct IH as [E2 O2].
    split; [|apply scrollOnly_app; assumption].
    rewrite E2, E. reflexivity.
Qed.

Lemma length_append (a b : string) :
  String.length (a ++ b) = String.length a + String.length b.
Proof. induction a as [|c a IH]; simpl; [reflexivity|]. rewrite IH. reflexivity. Qed.

Lemma view_ne_duration (sn : string) :
  ("view_" ++ sn) <> ("view_duration_over_5s_on_" ++ sn).
Proof.
  intro H. apply (f_equal String.length) in H.
  rewrite !length_append in H. simpl in H. lia.
Qed.

(** The calls of [trackEvent] of one cleanup. *)
Lemma cleanup_tracks (t : Z) (s : Inst) :
  tracks (snd (cleanup t s)) =
  if hasTrackedViewDuration s then []
  else if Qltb 5 (inject_Z (t - viewStartTime s) / 1000)
       then [Track ("view_duration_over_5s_on_" ++ h_screenName (installed s))
                   (h_lineProfile (installed s)) t]
       else [].
Proof.
  unfold cleanup.
  destruct (currentRef s); cbn [with_listeners hasTrackedViewDuration viewStartTime];
    destruct (hasTrackedViewDuration s); cbn [negb snd]; try reflexivity;
    destruct (Qltb _ _); reflexivity.
Qed.

Lemma cleanup_flag (t : Z) (s : Inst) :
  hasTrackedViewDuration (fst (cleanup t s)) = true.
Proof. rewrite (cleanup_frame t s). reflexivity. Qed.

Lemma cleanup_listeners (t : Z) (s : Inst) :
  listenersWF s -> listeners (fst (cleanup t s)) = [].
Proof.
  unfold listenersWF. intro H. unfold cleanup.
  destruct (currentRef s) eqn:C;
    cbn [with_listeners hasTrackedViewDuration];
    destruct (hasTrackedViewDuration s); cbn; rewrite H; try reflexivity;
    unfold removeEventListener; simpl; rewrite Nat.eqb_refl; reflexivity.
Qed.

End Lifecycle.

Lemma mount_WF (sn : string) (p : option Profile) (el : bool) (t0 : Z) :
  listenersWF (fst (mount sn p el t0)).
Proof. destruct el; reflexivity. Qed.

Lemma step_WF (a : Action) (s : Inst) :
  listenersWF s -> listenersWF (fst (step a s)).
Proof.
  intro H. destruct a as [sn p t | m t]; unfold step.
  - destruct (depsChanged sn p s); [|exact H].
    pose proof (cleanup_listeners t s H) as L.
    destruct (cleanup t s) as [s1 t1]. cbn [fst] in L.
    unfold runEffect. cbn [fst]. unfold listenersWF. cbn [listeners currentRef installed].
    rewrite L. destruct (mainRef s1); reflexivity.
  - unfold dispatchScroll.
    destruct (runListeners_frame (listeners s) m t s) as [E _].
    rewrite E. exact H.
Qed.

Lemma run_WF (acts : list Action) (s : Inst) :
  listenersWF s -> listenersWF (fst (run acts s)).
Proof.
  revert s. induction acts as [|a acts IH]; intros s H; cbn [run]; [exact H|].
  pose proof (step_WF a s H) as H1.
  destruct (step a s) as [s1 t1]. specialize (IH s1 H1).
  destruct (run acts s1) as [s2 t2]. exact IH.
Qed.

(** C7. Every cleanup, at unmount or at a re-run of the effect, first
    removes the installed [handleScroll] from the element (when the effect
    had bound it) and only then makes its duration evaluation, whose only
    outside effects are calls of [trackEvent]; a mounted instance has at most
    the installed listener registered, and after the unmount no listener is
    left on the element, whatever happened before. *)
Theorem cleanup_detaches_listener_first :
  (forall t s,
     snd (cleanup t s) =
     ((if currentRef s then [RemoveListener (h_id (installed s))] else [])
        ++ tracks (snd (cleanup t s)))%list) /\
  (forall sn p el t0 acts,
     listenersWF (fst (run acts (fst (mount sn p el t0))))) /\
  (forall sn p el t0 acts t,
     listeners (fst (unmount t (fst (run acts (fst (mount sn p el t0)))))) = []).
Proof.
  split; [|split].
  - intros t s. rewrite cleanup_tracks. unfold cleanup.
    destruct (currentRef s); cbn [with_listeners hasTrackedViewDuration viewStartTime];
      destruct (hasTrackedViewDuration s); cbn [negb snd]; try reflexivity;
      destruct (Qltb _ _); reflexivity.
  - intros. apply run_WF, mount_WF.
  - intros. apply cleanup_listeners, run_WF, mount_WF.
Qed.

Lemma mount_scrolls_state (sn : string) (p : option Profile) (el : bool) (t0 : Z)
    (ns : list (Measure * Z)) :
  exists b,
    fst (run (scrolls ns) (fst (mount sn p el t0))) =
    mkInst t0 false b el (if el then [mkHandler 0 sn p] else [])
           (mkHandler 0 sn p) el 1.
Proof.
  destruct (run_scrolls_frame ns (fst (mount sn p el t0))) as [E _].
  eexists. rewrite E. destruct el; reflexivity.
Qed.

(** C10. An instance mounted with a null profile whose profile then arrives
    (after any scroll notifications): the re-render re-runs the effect; its
    cleanup detaches the first listener, evaluates the duration against the
    time elapsed so far (reporting with the captured null profile if over 5
    seconds) and consumes the duration flag; the new run emits
    [view_<screenName>] with the profile and attaches a new listener; the
    final unmount, after any further scroll notifications, only detaches
    that listener and performs no duration evaluation. *)
Theorem profile_arrival_reruns_effect (sn : string) (pr : Profile)
    (t0 t1 t2 : Z) (ns : list (Measure * Z)) :
  let s1 := fst (run (scrolls ns) (fst (mount sn None true t0))) in
  let (s2, tr) := step (Rerender sn (Some pr) t1) s1 in
  tr = ([RemoveListener 0]
        ++ (if Qltb 5 (inject_Z (t1 - t0) / 1000)
            then [Track ("view_duration_over_5s_on_" ++ sn) None t1] else [])
        ++ [Track ("view_" ++ sn) (Some pr) t1; AddListener 1])%list /\
  hasTrackedViewDuration s2 = true /\
  listeners s2 = [mkHandler 1 sn (Some pr)] /\
  forall ns2 : list (Measure * Z),
    snd (unmount t2 (fst (run (scrolls ns2) s2))) = [RemoveListener 1].
Proof.
  intro s1. destruct (mount_scrolls_state sn None true t0 ns) as [b E].
  subst s1. rewrite E.
  unfold step, depsChanged. cbn [installed h_screenName h_lineProfile].
  destruct (string_dec sn sn) as [_|NE]; [|congruence].
  destruct (oprofile_eq_dec (Some pr) None) as [EQ|_]; [discriminate|].
  unfold cleanup. cbn -[Qltb run scrolls].
  destruct (Qltb _ _); cbn -[Qltb run scrolls];
    (split; [reflexivity|split; [reflexivity|split; [reflexivity|]]]);
    intro ns2;
    match goal with
    | |- context [run (scrolls ?n) ?x] =>
        destruct (run_scrolls_frame n x) as [E2 _]; rewrite E2
    end;
    reflexivity.
Qed.

(** C2 fails on the code: the welcome screen mounted with no profile yet,
    whose profile arrives after 1 second, is unmounted after 10 seconds
    (duration 10 > 5) and no [view_duration_over_5s_on_welcome] event is
    emitted, neither at the unmount nor at any other time.  The cleanup run
    by the [lineProfile] dependency change measured 1 second and consumed
    [hasTrackedViewDuration], so the unmount the code comments as
    [// Track view duration on unmount] evaluates nothing. *)
Lemma duration_claim_counterexample :
  let acts := [Rerender "welcome" (Some profileU) 1000] in
  let s1 := fst (run acts (fst (mount "welcome" None true 0))) in
  (5 < inject_Z (10000 - 0) / 1000)%Q /\
  tracks (snd (unmount 10000 s1)) = [] /\
  ~ In (durationName "welcome") (trackedNames (lifetime "welcome" None true 0 acts 10000)).
Proof.
  split; [unfold Qlt; simpl; lia|]. split; [reflexivity|].
  intro H. vm_compute in H.
  repeat (destruct H as [H|H]; [discriminate H|]). exact H.
Qed.

Lemma run_nullDeps (sn : string) (acts : list Action) (s : Inst) :
  Forall (nullDeps sn) acts ->
  h_screenName (installed s) = sn -> h_lineProfile (installed s) = None ->
  installed (fst (run acts s)) = installed s /\ scrollOnly (snd (run acts s)).
Proof.
  intro HF. revert s. induction HF as [|a acts Ha _ IH]; intros s Hs Hp.
  - split; [reflexivity|constructor].
  - cbn [run].
    assert (H1 : installed (fst (step a s)) = installed s /\ scrollOnly (snd (step a s))).
    { destruct a as [sn' p' t | m t]; unfold step.
      - destruct Ha as [-> ->]. unfold depsChanged. rewrite Hs, Hp.
        destruct (string_dec sn sn) as [_|NE]; [|congruence].
        destruct (oprofile_eq_dec None None) as [_|NE]; [|congruence].
        split; [reflexivity|constructor].
      - unfold dispatchScroll.
        destruct (runListeners_frame (listeners s) m t s) as [E _].
        split; [rewrite E; reflexivity|apply runListeners_scrollOnly]. }
    destruct (step a s) as [s1 t1]. cbn [fst snd] in H1. destruct H1 as [I1 O1].
    rewrite <- I1 in Hs, Hp. specialize (IH s1 Hs Hp).
    destruct (run acts s1) as [s2 t2]. cbn [fst snd] in *. destruct IH as [I2 O2].
    split; [congruence|apply scrollOnly_app; assumption].
Qed.

Lemma trackedNames_tracks (t : list Act) : trackedNames (tracks t) = trackedNames t.
Proof. induction t as [|[] t IH]; simpl; try rewrite IH; reflexivity. Qed.

(** C3, as stated, fails: the welcome screen mounted before the profile is
    loaded emits [view_welcome] once the profile arrives. *)
Lemma view_claim_counterexample :
  In (Track "view_welcome" (Some profileU) 1000)
     (lifetime "welcome" None true 0 [Rerender "welcome" (Some profileU) 1000] 10000).
Proof. simpl. right; right; left; reflexivity. Qed.

(** C3, amended.  An instance mounted with a null profile emits no
    [view_<screenName>] event as long as its profile stays null, whatever
    scrolls and re-renders it sees; when the profile arrives while it is
    mounted, the re-run effect emits [view_<screenName>] with that profile at
    that moment. *)
Theorem view_event_needs_profile :
  (forall sn el t0 acts tend,
     Forall (nullDeps sn) acts ->
     ~ In ("view_" ++ sn) (trackedNames (lifetime sn None el t0 acts tend))) /\
  (forall sn el t0 ns pr t1,
     In (Track ("view_" ++ sn) (Some pr) t1)
        (snd (step (Rerender sn (Some pr) t1)
                   (fst (run (scrolls ns) (fst (mount sn None el t0))))))).
Proof.
  split.
  - intros sn el t0 acts tend HF. unfold lifetime.
    assert (M : mount sn None el t0 =
                (mkInst t0 false false el (if el then [mkHandler 0 sn None] else [])
                        (mkHandler 0 sn None) el 1,
                 if el then [AddListener 0] else [])) by (destruct el; reflexivity).
    rewrite M.
    destruct (run_nullDeps sn acts
                (mkInst t0 false false el (if el then [mkHandler 0 sn None] else [])
                        (mkHandler 0 sn None) el 1) HF eq_refl eq_refl) as [I O].
    destruct (run acts _) as [s1 t2]. cbn [fst snd installed] in I, O.
    unfold unmount.
    pose proof (cleanup_tracks tend s1) as C.
    destruct (cleanup tend s1) as [s2 t3]. cbn [snd] in C.
    rewrite !trackedNames_app, <- (trackedNames_tracks t3), C, I. cbn [h_screenName].
    intro H. apply in_app_iff in H as [H|H]; [destruct el; destruct H|].
    apply in_app_iff in H as [H|H].
    + unfold scrollOnly in O. rewrite Forall_forall in O.
      specialize (O _ H). rewrite isScrollEvent_view in O. discriminate.
    + destruct (hasTrackedViewDuration s1); [destruct H|].
      destruct (Qltb _ _); [|destruct H].
      destruct H as [H|[]]. exact (view_ne_duration sn (eq_sym H)).
  - intros sn el t0 ns pr t1.
    destruct (mount_scrolls_state sn None el t0 ns) as [b E]. rewrite E.
    unfold step, depsChanged. cbn [installed h_screenName h_lineProfile].
    destruct (string_dec sn sn) as [_|NE]; [|congruence].
    destruct (oprofile_eq_dec (Some pr) None) as [EQ|_]; [discriminate|].
    destruct (cleanup _ _) as [s1 tr1].
    unfold runEffect. cbn [snd]. apply in_app_iff. right. left. reflexivity.
Qed.

Lemma view_event_needs_profile_witness :
  Forall (nullDeps "welcome")
         [Scroll (mkMeasure 400 1000 500) 500; Rerender "welcome" None 700] /\
  ~ In ("view_" ++ "welcome")
       (trackedNames (lifetime "welcome" None true 0
          [Scroll (mkMeasure 400 1000 500) 500; Rerender "welcome" None 700] 8000)).
Proof.
  assert (HF : Forall (nullDeps "welcome")
                 [Scroll (mkMeasure 400 1000 500) 500; Rerender "welcome" None 700]).
  { repeat constructor. }
  split; [exact HF|].
  exact (proj1 view_event_needs_profile "welcome" true 0%Z _ 8000%Z HF).
Defined.

(** C9. Scroll-depth and duration events carry no profile guard: an instance
    mounted with a null profile, scrolled past 70% and unmounted after more
    than 5 seconds, emits both events with the null profile (and no view
    event), and a record built for a null profile has the fallback fields
    ["Unknown"], ["N/A"], ["Unknown"]. *)
Theorem scroll_and_duration_without_profile :
  (forall sn t0 m t tend,
     scrollable m -> over70 m -> (5 < inject_Z (tend - t0) / 1000)%Q ->
     lifetime sn None true t0 [Scroll m t] tend =
     [AddListener 0; Track ("scroll_depth_over_70%_on_" ++ sn) None t;
      RemoveListener 0; Track (durationName sn) None tend]) /\
  (forall toISOString name now,
     let d := buildEventData toISOString name None now in
     prop1 d = "Unknown" /\ prop2 d = "N/A" /\ prop3 d = "Unknown").
Proof.
  split; [|repeat split].
  intros sn t0 m t tend Hs Ho D.
  unfold lifetime. rewrite mount_state. cbn [fst snd run].
  rewrite (scroll_fires m t _ (mkHandler 0 sn None)); try reflexivity; try assumption.
  cbn [fst snd h_screenName h_lineProfile]. unfold unmount, cleanup.
  cbn -[Qltb]. apply Qltb_spec in D. rewrite D. reflexivity.
Qed.

Lemma scroll_and_duration_without_profile_witness :
  scrollable (mkMeasure 400 1000 500) /\ over70 (mkMeasure 400 1000 500) /\
  (5 < inject_Z (6000 - 0) / 1000)%Q /\
  lifetime "otp_screen" None true 0 [Scroll (mkMeasure 400 1000 500) 1000] 6000 =
  [AddListener 0; Track ("scroll_depth_over_70%_on_" ++ "otp_screen") None 1000;
   RemoveListener 0; Track (durationName "otp_screen") None 6000].
Proof.
  assert (Hs : scrollable (mkMeasure 400 1000 500)) by (unfold scrollable, Qlt; simpl; lia).
  assert (Ho : over70 (mkMeasure 400 1000 500)) by (unfold over70, Qlt; simpl; lia).
  assert (D : (5 < inject_Z (6000 - 0) / 1000)%Q) by (unfold Qlt; simpl; lia).
  split; [exact Hs|]. split; [exact Ho|]. split; [exact D|].
  exact (proj1 scroll_and_duration_without_profile "otp_screen" 0%Z _ 1000%Z 6000%Z Hs Ho D).
Defined.

(** * The [App] component and its screens *)

Section AppLemmas.

Lemma set_screen_screen (s : AppState) (sc : string) : screen (set_screen s sc) = sc.
Proof. reflexivity. Qed.

Lemma appInv_init (hash : string) : appInv (appMountHash hash initialApp).
Proof.
  unfold appMountHash.
  destruct (String.eqb hash ""); [|destruct (String.eqb hash "#policies");
    [|destruct (String.eqb hash "#claims"); [|destruct (String.eqb hash "#privileges")]]];
  (split; [simpl; tauto|split]); simpl; intro H;
    repeat destruct H as [H|H]; try discriminate H; try contradiction; reflexivity.
Qed.

Ltac close_screen :=
  split; [simpl; tauto|split]; cbn [screen set_screen set_userData userData isNew firstName with_isNew];
  let HH := fresh "HH" in
  intro HH; simpl in HH; repeat destruct HH as [HH|HH]; try discriminate HH; try contradiction;
  try reflexivity; try (eexists; split; [reflexivity|discriminate]).

Lemma menuItems_spec (u : UserData) (target : string) :
  existsb (String.eqb target) (menuItems u) = true ->
  target = "privileges" \/ (isNew u = false /\ (target = "my_policies" \/ target = "my_claims")).
Proof.
  unfold menuItems. destruct (isNew u); simpl; intro H.
  - rewrite orb_false_r in H. apply String.eqb_eq in H. left; exact H.
  - destruct (String.eqb target "my_policies") eqn:E1;
      [apply String.eqb_eq in E1; right; auto|].
    destruct (String.eqb target "my_claims") eqn:E2;
      [apply String.eqb_eq in E2; right; auto|].
    simpl in H. rewrite orb_false_r in H. apply String.eqb_eq in H. left; exact H.
Qed.

Lemma fieldMissing_first (fd : FormData) :
  fieldMissing fd = false -> fd_firstName fd <> "".
Proof.
  unfold fieldMissing. intros F E. rewrite E in F. discriminate F.
Qed.

Lemma appInv_step (lp : option Profile) (e : UiEvent) (s s' : AppState) (tr : list string) :
  appInv s -> uiStep lp e s = Some (s', tr) -> appInv s'.
Proof.
  intros [K [P O]] Hs. unfold uiStep in Hs.
  simpl in K. repeat destruct K as [K|K]; try contradiction; rewrite <- K in Hs;
    destruct e; cbn in Hs; try discriminate Hs.
  all: try (injection Hs as <- <-; close_screen; fail).
  all: try (injection Hs as <- <-; split; [rewrite <- K; simpl; tauto|split; rewrite <- K; auto]; fail).
  - (* Request OTP *)
    destruct consent; [|injection Hs as <- <-; split; [rewrite <- K; simpl; tauto|split; [exact P|exact O]]].
    unfold handleSubmitForm in Hs. destruct (fieldMissing fd) eqn:F; cbn [snd] in Hs;
      injection Hs as <- <-.
    + split; [rewrite <- K; simpl; tauto|split; [exact P|exact O]].
    + close_screen. exists (fd_firstName fd). split; [reflexivity|].
      intro E. apply fieldMissing_first in F. contradiction.
  - (* Verify OTP *)
    unfold handleSubmitOtp in Hs. destruct (String.eqb otp "999999"); cbn [snd] in Hs;
      injection Hs as <- <-.
    + close_screen. apply O. rewrite <- K. simpl; tauto.
    + split; [rewrite <- K; simpl; tauto|split; [exact P|exact O]].
  - (* menu item *)
    destruct (existsb (String.eqb target) (menuItems (userData s))) eqn:M; [|discriminate Hs].
    injection Hs as <- <-. apply menuItems_spec in M.
    destruct M as [M|[N [M|M]]]; subst target; close_screen; exact N.
  - (* policy row *)
    destruct (nth_error policies i); [|discriminate Hs]. injection Hs as <- <-.
    close_screen. apply P. rewrite <- K. simpl; tauto.
  - (* claim row *)
    destruct (nth_error claims i); [|discriminate Hs]. injection Hs as <- <-.
    close_screen. apply P. rewrite <- K. simpl; tauto.
  - (* privilege card *)
    destruct (nth_error privileges i); [|discriminate Hs]. injection Hs as <- <-.
    split; [rewrite <- K; simpl; tauto|split; [exact P|exact O]].
Qed.

End AppLemmas.

Section AppLemmas2.

Lemma appInv_reachable (lp : option Profile) (s : AppState) :
  reachable lp s -> appInv s.
Proof.
  induction 1 as [hash|e s s' tr _ IH Hs].
  - apply appInv_init.
  - exact (appInv_step lp e s s' tr IH Hs).
Qed.

Lemma propItem_props_policy (lp : option Profile) (s : AppState) :
  propItem "policy" (props lp s) = None.
Proof. reflexivity. Qed.

Lemma propItem_props_claim (lp : option Profile) (s : AppState) :
  propItem "claim" (props lp s) = None.
Proof. reflexivity. Qed.

Lemma existsb_filter_neq (c v : string) (l : list string) :
  existsb (String.eqb c) (filter (fun i => negb (String.eqb i v)) l)
  = if String.eqb c v then false else existsb (String.eqb c) l.
Proof.
  induction l as [|x l IH]; simpl.
  - destruct (String.eqb c v); reflexivity.
  - destruct (String.eqb x v) eqn:Exv; simpl.
    + apply String.eqb_eq in Exv. subst x. rewrite IH.
      destruct (String.eqb c v); reflexivity.
    + rewrite IH. destruct (String.eqb c v) eqn:Ecv; [|reflexivity].
      apply String.eqb_eq in Ecv. subst c. rewrite String.eqb_sym, Exv. reflexivity.
Qed.

Lemma existsb_clickInterest (c v : string) (l : list string) :
  existsb (String.eqb c) (clickInterest v l)
  = xorb (String.eqb v c) (existsb (String.eqb c) l).
Proof.
  unfold clickInterest, handleInterestChange.
  destruct (existsb (String.eqb v) l) eqn:Ev; simpl.
  - rewrite existsb_filter_neq, (String.eqb_sym v c).
    destruct (String.eqb c v) eqn:Ecv; [|reflexivity].
    apply String.eqb_eq in Ecv. subst c. rewrite Ev. reflexivity.
  - rewrite existsb_app. simpl. rewrite orb_false_r, (String.eqb_sym c v).
    destruct (String.eqb v c) eqn:Evc.
    + apply String.eqb_eq in Evc. subst c. rewrite Ev. reflexivity.
    + rewrite orb_false_r. destruct (existsb (String.eqb c) l); reflexivity.
Qed.

Lemma existsb_fold_clickInterest (c : string) (clicks : list string) :
  forall l, existsb (String.eqb c) (fold_left (fun l v => clickInterest v l) clicks l)
  = xorb (existsb (String.eqb c) l) (Nat.odd (count_occ string_dec clicks c)).
Proof.
  induction clicks as [|v cs IH]; intro l; simpl.
  - rewrite xorb_false_r. reflexivity.
  - rewrite IH, existsb_clickInterest.
    destruct (string_dec v c) as [->|Hne].
    + rewrite String.eqb_refl, Nat.odd_succ, <- Nat.negb_odd.
      destruct (existsb (String.eqb c) l), (Nat.odd (count_occ string_dec cs c)); reflexivity.
    + apply String.eqb_neq in Hne. rewrite Hne. reflexivity.
Qed.

Lemma clickInterest_NoDup (v : string) (l : list string) :
  NoDup l -> NoDup (clickInterest v l).
Proof.
  intro N. unfold clickInterest, handleInterestChange.
  destruct (existsb (String.eqb v) l) eqn:Ev; simpl.
  - apply NoDup_filter, N.
  - apply NoDup_app; [exact N|constructor; [intros []|constructor]|].
    intros a Ha [E|[]]. subst a.
    assert (existsb (String.eqb v) l = true) as Ea.
    { apply existsb_exists. exists v. split; [exact Ha|apply String.eqb_refl]. }
    rewrite Ea in Ev. discriminate Ev.
Qed.

Lemma fold_clickInterest_NoDup (clicks : list string) :
  forall l, NoDup l -> NoDup (fold_left (fun l v => clickInterest v l) clicks l).
Proof.
  induction clicks as [|v cs IH]; intros l N; simpl; [exact N|].
  apply IH, clickInterest_NoDup, N.
Qed.

Lemma In_existsb_eqb (c : string) (l : list string) :
  In c l <-> existsb (String.eqb c) l = true.
Proof.
  rewrite existsb_exists. split.
  - intro H. exists c. split; [exact H|apply String.eqb_refl].
  - intros [x [Hx E]]. apply String.eqb_eq in E. subst x. exact Hx.
Qed.

Lemma replaceWsGo_noWs (s : string) : forall inRun, noWs (replaceWsGo inRun s) = true.
Proof.
  induction s as [|c s IH]; intro inRun; simpl; [reflexivity|].
  destruct (isWs c) eqn:W; [destruct inRun|]; simpl; rewrite ?IH, ?W; reflexivity.
Qed.

Lemma replaceWsGo_id (s : string) : forall inRun, noWs s = true -> replaceWsGo inRun s = s.
Proof.
  induction s as [|c s IH]; intros inRun H; simpl; [reflexivity|].
  simpl in H. apply andb_prop in H. destruct H as [W H].
  destruct (isWs c); [discriminate W|]. rewrite IH; [reflexivity|exact H].
Qed.

End AppLemmas2.

(** * Properties of the screens *)

(** X1: every state [App] reaches, from any URL hash and any clicks, shows
    one of the eleven screens [renderScreen] names; the [default] branch is
    only ever taken on a known name. *)
Theorem reachable_screen_known (lp : option Profile) (s : AppState) :
  reachable lp s -> In (screen s) knownScreens.
Proof. intro R. apply (appInv_reachable lp s R). Qed.

Lemma reachable_screen_known_witness :
  reachable None (appMountHash "#claims" initialApp) /\
  In (screen (appMountHash "#claims" initialApp)) knownScreens.
Proof.
  split; [apply reach_init|].
  apply (reachable_screen_known None); apply reach_init.
Defined.

(** X2: the policy and claim screens are only ever shown to an existing
    customer: on [my_policies], [policy_details], [my_claims] and
    [claim_details] the [userData.isNew] flag is false. *)
Theorem policies_claims_only_existing (lp : option Profile) (s : AppState) :
  reachable lp s ->
  In (screen s) ["my_policies"; "policy_details"; "my_claims"; "claim_details"] ->
  isNew (userData s) = false.
Proof. intro R. apply (appInv_reachable lp s R). Qed.

Lemma policies_claims_only_existing_witness :
  let s := appMountHash "#policies" initialApp in
  reachable None s /\
  In (screen s) ["my_policies"; "policy_details"; "my_claims"; "claim_details"] /\
  isNew (userData s) = false.
Proof.
  split; [apply reach_init|split; [simpl; tauto|]].
  apply (policies_claims_only_existing None); [apply reach_init|simpl; tauto].
Defined.

(** X3: on the OTP and completion screens the user's first name is set and
    non-empty, so the greeting [userData?.firstName || 'customer'] of
    [CompletedScreen] never falls back to ['customer']. *)
Theorem otp_completed_have_first_name (lp : option Profile) (s : AppState) :
  reachable lp s -> In (screen s) ["otp"; "completed"] ->
  exists n, firstName (userData s) = Some n /\ n <> "".
Proof. intro R. apply (appInv_reachable lp s R). Qed.

Lemma otp_completed_have_first_name_witness :
  let s := mkAppState "completed" (mkUserData false (Some "Valued Customer") None None None None)
             None None in
  reachable None s /\ In (screen s) ["otp"; "completed"] /\
  exists n, firstName (userData s) = Some n /\ n <> "".
Proof.
  assert (R : reachable None (mkAppState "completed"
                (mkUserData false (Some "Valued Customer") None None None None) None None)).
  { apply (reach_step None ClickOktaLogin
             (mkAppState "existing_customer_login" (mkUserData false None None None None None)
                None None) _ ["click_okta_login"]); [|reflexivity].
    apply (reach_step None ClickExistingCustomer (appMountHash "" initialApp) _
             ["click_existing_customer_button"]); [apply reach_init|reflexivity]. }
  split; [exact R|split; [simpl; tauto|]].
  apply (otp_completed_have_first_name None); [exact R|simpl; tauto].
Defined.

(** X4: the detail screens are dead ends. [renderScreen] passes the selected
    item as [selectedPolicy] and [selectedClaim], while [PolicyDetailsScreen]
    and [ClaimDetailsScreen] read [policy] and [claim]; both are undefined, the
    screens render [null] and nothing can be clicked. Both screens are reached
    from the lists. *)
Theorem detail_screens_dead_end :
  (forall (lp : option Profile) (s : AppState) (e : UiEvent),
     screen s = "policy_details" \/ screen s = "claim_details" -> uiStep lp e s = None) /\
  (forall lp : option Profile,
     (exists s, reachable lp s /\ screen s = "policy_details") /\
     (exists s, reachable lp s /\ screen s = "claim_details")).
Proof.
  split.
  - intros lp s e [H|H]; unfold uiStep; rewrite H; cbn [renderScreen];
      destruct e; cbn; try reflexivity.
  - intro lp. split.
    + exists (mkAppState "policy_details" (mkUserData false None None None None None)
                (nth_error policies 0) None).
      split; [|reflexivity].
      eapply (reach_step lp (ClickPolicy 0) (appMountHash "#policies" initialApp));
        [apply reach_init|reflexivity].
    + exists (mkAppState "claim_details" (mkUserData false None None None None None)
                None (nth_error claims 0)).
      split; [|reflexivity].
      eapply (reach_step lp (ClickClaim 0) (appMountHash "#claims" initialApp));
        [apply reach_init|reflexivity].
Qed.

Lemma detail_screens_dead_end_witness :
  let s := mkAppState "policy_details" (mkUserData false None None None None None)
             (nth_error policies 0) None in
  (screen s = "policy_details" \/ screen s = "claim_details") /\ uiStep None ClickBack s = None.
Proof.
  split; [left; reflexivity|].
  apply (proj1 detail_screens_dead_end). left; reflexivity.
Defined.

(** X5: apart from the two detail screens, every reachable state gets back
    to [welcome] in at most two clicks: Back, Start Over, or Back twice. *)
Theorem back_to_welcome (lp : option Profile) (s : AppState) :
  reachable lp s -> ~ In (screen s) ["policy_details"; "claim_details"] ->
  exists es s' tr, length es <= 2 /\ uiRun lp es s = Some (s', tr) /\ screen s' = "welcome".
Proof.
  intros R N. destruct (appInv_reachable lp s R) as [K _].
  simpl in K. repeat destruct K as [K|K]; try contradiction;
    try (exfalso; apply N; rewrite <- K; simpl; tauto).
  - exists [], s, []. split; [simpl; lia|split; [reflexivity|symmetry; exact K]].
  - exists [ClickBack]. do 2 eexists. split; [simpl; lia|].
    split; [cbn [uiRun]; unfold uiStep; rewrite <- K; reflexivity|reflexivity].
  - exists [ClickBack]. do 2 eexists. split; [simpl; lia|].
    split; [cbn [uiRun]; unfold uiStep; rewrite <- K; reflexivity|reflexivity].
  - exists [ClickBack; ClickBack]. do 2 eexists. split; [simpl; lia|].
    split; [cbn [uiRun]; unfold uiStep; rewrite <- K; reflexivity|reflexivity].
  - exists [ClickStartOver]. do 2 eexists. split; [simpl; lia|].
    split; [cbn [uiRun]; unfold uiStep; rewrite <- K; reflexivity|reflexivity].
  - exists [ClickBack]. do 2 eexists. split; [simpl; lia|].
    split; [cbn [uiRun]; unfold uiStep; rewrite <- K; reflexivity|reflexivity].
  - exists [ClickBack; ClickBack]. do 2 eexists. split; [simpl; lia|].
    split; [cbn [uiRun]; unfold uiStep; rewrite <- K; reflexivity|reflexivity].
  - exists [ClickBack; ClickBack]. do 2 eexists. split; [simpl; lia|].
    split; [cbn [uiRun]; unfold uiStep; rewrite <- K; reflexivity|reflexivity].
  - exists [ClickBack; ClickBack]. do 2 eexists. split; [simpl; lia|].
    split; [cbn [uiRun]; unfold uiStep; rewrite <- K; reflexivity|reflexivity].
Qed.

Lemma back_to_welcome_witness :
  let s := appMountHash "#privileges" initialApp in
  reachable None s /\ ~ In (screen s) ["policy_details"; "claim_details"] /\
  exists es s' tr, length es <= 2 /\ uiRun None es s = Some (s', tr) /\ screen s' = "welcome".
Proof.
  split; [apply reach_init|split; [simpl; intros [H|[H|[]]]; discriminate H|]].
  apply (back_to_welcome None); [apply reach_init|simpl; intros [H|[H|[]]]; discriminate H].
Defined.

(** X6: the interest checkboxes of [NewCustomerForm]. Whatever the clicks,
    the [interests] list never holds a category twice, and it holds a
    category exactly when that box was clicked an odd number of times. *)
Theorem interests_toggle (clicks : list string) (c : string) :
  NoDup (interestsAfter clicks) /\
  (In c (interestsAfter clicks) <-> Nat.odd (count_occ string_dec clicks c) = true).
Proof.
  unfold interestsAfter. split.
  - apply fold_clickInterest_NoDup. constructor.
  - rewrite In_existsb_eqb, existsb_fold_clickInterest. reflexivity.
Qed.

(** X7: the event suffix [p.name.replace(/\s+/g, '_')] of [PrivilegesScreen]
    holds no whitespace, leaves a name without whitespace as it is, and is
    therefore idempotent. *)
Theorem replaceWs_spec :
  (forall s, noWs (replaceWs s) = true) /\
  (forall s, noWs s = true -> replaceWs s = s) /\
  (forall s, replaceWs (replaceWs s) = replaceWs s).
Proof.
  split; [intro s; apply replaceWsGo_noWs|split].
  - intros s H. apply replaceWsGo_id, H.
  - intro s. apply replaceWsGo_id, replaceWsGo_noWs.
Qed.

Lemma replaceWs_spec_witness :
  noWs "Free_coverage" = true /\ replaceWs "Free_coverage" = "Free_coverage".
Proof.
  split; [reflexivity|]. apply (proj1 (proj2 replaceWs_spec)). reflexivity.
Defined.

(** X10: whatever is clicked on whatever screen, every [trackEvent] call a
    click makes has a name starting with [click_]. *)
Theorem click_events_prefixed (lp : option Profile) (e : UiEvent) (s s' : AppState)
    (tr : list string) :
  uiStep lp e s = Some (s', tr) -> forallb (String.prefix "click_") tr = true.
Proof.
  intro H. unfold uiStep in H.
  destruct (renderScreen (screen s)), e; cbn in H; try discriminate H;
    unfold handleSubmitForm, handleSubmitOtp in H;
    repeat match type of H with
           | context [match ?x with _ => _ end] => destruct x; cbn in H; try discriminate H
           end;
    injection H as _ <-; reflexivity.
Qed.

Lemma click_events_prefixed_witness :
  let s := mkAppState "features_menu" (mkUserData false None None None None None) None None in
  uiStep None (ClickMenu "my_claims") s
    = Some (set_screen s "my_claims", ["click_menu_my_claims"]) /\
  forallb (String.prefix "click_") ["click_menu_my_claims"] = true.
Proof.
  cbv zeta. split; [reflexivity|].
  apply (click_events_prefixed None (ClickMenu "my_claims")
           (mkAppState "features_menu" (mkUserData false None None None None None) None None)
           (set_screen (mkAppState "features_menu" (mkUserData false None None None None None)
                          None None) "my_claims")).
  reflexivity.
Defined.


